(** * The sidebar index of [foxbox_taxonomy::devices]

    [doc/foxbox_taxonomy/devices/sidebar-items.js] is one expression
    statement: a call of the global function [initSidebarItems] on an object
    literal.  The literal maps an item category to an array of
    [[name, summary]] arrays.

    The embedding keeps the literal as the script writes it (properties in
    source order, arrays as lists, strings as [string]) and gives it the
    meaning JavaScript gives it: an object is a finite map from property
    names to values in which a later definition of a property replaces an
    earlier one. *)

From Stdlib Require Import Ascii String.
From stdpp Require Import gmap strings list sorting.

Local Open Scope string_scope.

(** ** Values *)

(** The values an object literal of this file is built from. *)
#[warnings="-register-all"] Inductive value : Type :=
| VString (s : string)
| VArray (elems : list value)
| VObject (props : list (string * value)).

(** A statement of the script: a call of a global function. *)
Record call : Type := Call { callee : string; args : list value }.

(** The double quote character, U+0022, which the source writes escaped
    with a backslash inside its string literals. *)
Definition dq : string := String (ascii_of_nat 34) EmptyString.

(** ** The script *)

(** The argument of the call, property by property as in the source. *)
Definition registration : value :=
  VObject
    [ ("enum",
       VArray
         [ VArray [ VString "ChannelKind";
                    VString ("The kind of the service, i.e. a strongly-typed description of _what_ the service can do. Used both for locating services (e.g. " +:+ dq +:+ "I need a clock" +:+ dq +:+ " or " +:+ dq +:+ "I need something that can provide pictures" +:+ dq +:+ ") and for determining the data structure that these services can provide or consume.") ] ]);
      ("struct",
       VArray
         [ VArray [ VString "Channel";
                    VString "An channel represents a single place where data can enter or leave a device. Note that channels support either a single kind of getter or a single kind of setter. Devices that support both getters or setters, or several kinds of getters, or several kinds of setters, are represented as nodes containing several channels." ];
           VArray [ VString "Getter";
                    VString "A getter operation available on a channel." ];
           VArray [ VString "Node";
                    VString "Metadata on a node. A node is a device or collection of devices that may offer services. The FoxBox itself a node offering services such as a clock, communication with the user through her smart devices, etc." ];
           VArray [ VString "NodeId";
                    VString "A marker for Id. Only useful for writing `Id<NodeId>`." ];
           VArray [ VString "Setter";
                    VString "An setter operation available on an channel." ] ]);
      ("trait",
       VArray
         [ VArray [ VString "IOMechanism";
                    VString "The communication mechanism used by the channel." ] ]) ].

(** The whole file. *)
Definition sidebar_items_js : list call :=
  [ Call "initSidebarItems" [ registration ] ].

(** The argument lists of the calls of [f], in program order. *)
Definition passed_to (f : string) (script : list call) : list (list value) :=
  args <$> filter (λ c, callee c = f) script.

(** ** The text of the file *)

(** A string literal between double quotes, its double quotes escaped. *)
Fixpoint escape (s : string) : string :=
  match s with
  | EmptyString => EmptyString
  | String c s' =>
      if Ascii.eqb c (ascii_of_nat 34)
      then "\" +:+ dq +:+ escape s'
      else String c (escape s')
  end.

Definition quote (s : string) : string := dq +:+ escape s +:+ dq.

(** A value as the generator prints it: no white space between tokens. *)
Fixpoint to_js (v : value) : string :=
  match v with
  | VString s => quote s
  | VArray elems =>
      "[" +:+
      (fix go (xs : list value) : string :=
         match xs with
         | [] => ""
         | x :: xs' =>
             to_js x +:+ match xs' with [] => "" | _ => "," +:+ go xs' end
         end) elems
      +:+ "]"
  | VObject props =>
      "{" +:+
      (fix go (ps : list (string * value)) : string :=
         match ps with
         | [] => ""
         | (k, x) :: ps' =>
             quote k +:+ ":" +:+ to_js x
             +:+ match ps' with [] => "" | _ => "," +:+ go ps' end
         end) props
      +:+ "}"
  end.

Definition call_to_js (c : call) : string :=
  callee c +:+ "("
  +:+ String.concat "," (to_js <$> args c)
  +:+ ");".

Definition script_to_js (script : list call) : string :=
  String.concat "" (call_to_js <$> script).

(** The bytes of [sidebar-items.js], cut at each double quote. *)
Definition source_text : string :=
  "initSidebarItems({"
    +:+ dq +:+ "enum"
    +:+ dq +:+ ":[["
    +:+ dq +:+ "ChannelKind"
    +:+ dq +:+ ","
    +:+ dq +:+ "The kind of the service, i.e. a strongly-typed description of _what_ the service can do. Used both for locating services (e.g. \"
    +:+ dq +:+ "I need a clock\"
    +:+ dq +:+ " or \"
    +:+ dq +:+ "I need something that can provide pictures\"
    +:+ dq +:+ ") and for determining the data structure that these services can provide or consume."
    +:+ dq +:+ "]],"
    +:+ dq +:+ "struct"
    +:+ dq +:+ ":[["
    +:+ dq +:+ "Channel"
    +:+ dq +:+ ","
    +:+ dq +:+ "An channel represents a single place where data can enter or leave a device. Note that channels support either a single kind of getter or a single kind of setter. Devices that support both getters or setters, or several kinds of getters, or several kinds of setters, are represented as nodes containing several channels."
    +:+ dq +:+ "],["
    +:+ dq +:+ "Getter"
    +:+ dq +:+ ","
    +:+ dq +:+ "A getter operation available on a channel."
    +:+ dq +:+ "],["
    +:+ dq +:+ "Node"
    +:+ dq +:+ ","
    +:+ dq +:+ "Metadata on a node. A node is a device or collection of devices that may offer services. The FoxBox itself a node offering services such as a clock, communication with the user through her smart devices, etc."
    +:+ dq +:+ "],["
    +:+ dq +:+ "NodeId"
    +:+ dq +:+ ","
    +:+ dq +:+ "A marker for Id. Only useful for writing `Id<NodeId>`."
    +:+ dq +:+ "],["
    +:+ dq +:+ "Setter"
    +:+ dq +:+ ","
    +:+ dq +:+ "An setter operation available on an channel."
    +:+ dq +:+ "]],"
    +:+ dq +:+ "trait"
    +:+ dq +:+ ":[["
    +:+ dq +:+ "IOMechanism"
    +:+ dq +:+ ","
    +:+ dq +:+ "The communication mechanism used by the channel."
    +:+ dq +:+ "]]});".

(** ** Objects and arrays as JavaScript reads them *)

(** Evaluating the properties of an object literal in order: a property
    defined twice keeps its last value. *)
Definition define_props (ps : list (string * value)) : gmap string value :=
  foldl (λ m kv, <[kv.1 := kv.2]> m) ∅ ps.

(** The own properties of a value; strings and arrays have none of the
    properties the sidebar reads. *)
Definition properties (v : value) : gmap string value :=
  match v with
  | VObject ps => define_props ps
  | _ => ∅
  end.

(** [v[k]]. *)
Definition get (v : value) (k : string) : option value := properties v !! k.

(** The property names of an object literal, one per written property. *)
Definition written_keys (v : value) : list string :=
  match v with
  | VObject ps => ps.*1
  | _ => []
  end.

(** [Object.keys(v)] as a set. *)
Definition keys (v : value) : gset string := dom (properties v).

(** A [[name, summary]] array: exactly two elements, both strings. *)
Definition as_entry (v : value) : option (string * string) :=
  match v with
  | VArray [VString name; VString summary] => Some (name, summary)
  | _ => None
  end.

(** An array all of whose elements are [[name, summary]] arrays, in order. *)
Definition as_entries (v : value) : option (list (string * string)) :=
  match v with
  | VArray elems => mapM as_entry elems
  | _ => None
  end.

(** The entries registered under category [k]. *)
Definition entries (v : value) (k : string) : option (list (string * string)) :=
  get v k ≫= as_entries.

(** The names registered under category [k], in display order. *)
Definition names (v : value) (k : string) : option (list string) :=
  (λ es : list (string * string), es.*1) <$> entries v k.

(** The flat registry: one row [(kind, name, summary)] per entry, categories
    in the order the literal writes them. *)
Definition rows (v : value) : list (string * string * string) :=
  k ← written_keys v;
  e ← default [] (entries v k);
  [ (k, e.1, e.2) ].

(** [name] is registered under category [k] with [summary]. *)
Definition registered (v : value) (k name summary : string) : Prop :=
  ∃ es, entries v k = Some es ∧ (name, summary) ∈ es.

(** The type names: what the [enum] and [struct] categories register. *)
Definition type_names (v : value) : option (list string) :=
  e ← names v "enum"; s ← names v "struct"; Some (e ++ s)%list.

(** The capability names: what the [trait] category registers. *)
Definition capability_names (v : value) : option (list string) :=
  names v "trait".

(** ** Properties of names and summaries *)

(** Order of strings by the codes of their characters, as [<] compares
    strings in JavaScript (the names here are ASCII). *)
Definition name_lt (a b : string) : Prop := String.compare a b = Lt.

Definition chars (s : string) : list ascii := list_ascii_of_string s.

Definition between (lo hi c : ascii) : bool :=
  (nat_of_ascii lo <=? nat_of_ascii c)%nat && (nat_of_ascii c <=? nat_of_ascii hi)%nat.

Definition is_ascii_letter (c : ascii) : bool :=
  between "A" "Z" c || between "a" "z" c.

Definition is_ascii_digit (c : ascii) : bool := between "0" "9" c.

(** Non-empty, a letter first, then letters and digits only. *)
Definition is_identifier (s : string) : bool :=
  match chars s with
  | [] => false
  | c :: cs => is_ascii_letter c && forallb (λ d, is_ascii_letter d || is_ascii_digit d) cs
  end.

Definition has_char (c : ascii) (s : string) : bool :=
  existsb (Ascii.eqb c) (chars s).

(** No line feed and no carriage return. *)
Definition single_line (s : string) : bool :=
  negb (has_char "010" s) && negb (has_char "013" s).

Definition no_raw_angle (s : string) : bool :=
  negb (has_char "<" s) && negb (has_char ">" s).

(** What follows an ampersand is the rest of an entity: at least one letter,
    digit or [#], then a semicolon. *)
Fixpoint closes_entity (nonempty : bool) (cs : list ascii) : bool :=
  match cs with
  | [] => false
  | c :: cs' =>
      if Ascii.eqb c ";" then nonempty
      else (is_ascii_letter c || is_ascii_digit c || Ascii.eqb c "#")
           && closes_entity true cs'
  end.

Fixpoint amp_in_entities (cs : list ascii) : bool :=
  match cs with
  | [] => true
  | c :: cs' =>
      (if Ascii.eqb c "&" then closes_entity false cs' else true)
      && amp_in_entities cs'
  end.

(** A single line of escaped HTML text. *)
Definition html_escaped_line (s : string) : bool :=
  single_line s && no_raw_angle s && amp_in_entities (chars s).

(** The properties of an object literal as written, in source order. *)
Definition written_props (v : value) : list (string * value) :=
  match v with
  | VObject ps => ps
  | _ => []
  end.

(** Codes 32 to 126: the printable characters of ASCII. *)
Definition is_printable_ascii (c : ascii) : bool := between " " "~" c.

(** ** The embedding against the file *)

(** Printing the embedded script gives the file back, byte for byte. *)
Lemma script_to_js_source : script_to_js sidebar_items_js = source_text.
Proof. by vm_compute. Qed.

Lemma source_text_length : String.length source_text = 1152.
Proof. by vm_compute. Qed.

(** A property written twice keeps its last value. *)
Example define_props_last_wins :
  get (VObject [ ("a", VString "x"); ("a", VString "y") ]) "a"
  = Some (VString "y").
Proof. by vm_compute. Qed.

Example as_entry_three : as_entry (VArray [ VString "a"; VString "b"; VString "c" ]) = None.
Proof. reflexivity. Qed.

Example as_entries_mixed :
  as_entries (VArray [ VArray [ VString "a"; VString "b" ]; VString "c" ]) = None.
Proof. reflexivity. Qed.

Example name_lt_prefix : name_lt "Node" "NodeId" ∧ ¬ name_lt "NodeId" "Node".
Proof. split; [reflexivity | discriminate]. Qed.

Example name_lt_case : name_lt "Setter" "getter" ∧ ¬ name_lt "Getter" "Getter".
Proof. split; [reflexivity | discriminate]. Qed.

Example is_identifier_samples :
  is_identifier "NodeId" = true
  ∧ is_identifier "" = false
  ∧ is_identifier "9lives" = false
  ∧ is_identifier "Id<NodeId>" = false
  ∧ is_identifier "node id" = false.
Proof. by vm_compute. Qed.

Example html_escaped_line_samples :
  html_escaped_line "Id&lt;NodeId&gt; &amp; &#38; more" = true
  ∧ html_escaped_line "Id<NodeId>" = false
  ∧ html_escaped_line "a & b" = false
  ∧ html_escaped_line "a &; b" = false
  ∧ html_escaped_line ("one" +:+ String "010" "two") = false.
Proof. by vm_compute. Qed.

(** ** The call and its argument *)

Lemma passed_registration :
  passed_to "initSidebarItems" sidebar_items_js = [ [ registration ] ].
Proof. reflexivity. Qed.

Lemma keys_registration :
  keys registration = {[ "enum"; "struct"; "trait" ]}.
Proof. by vm_compute. Qed.

Lemma get_registration_cases k v :
  get registration k = Some v → k = "enum" ∨ k = "struct" ∨ k = "trait".
Proof.
  intros Hget.
  assert (Hk : k ∈ keys registration) by (apply elem_of_dom; by exists v).
  rewrite keys_registration, !elem_of_union, !elem_of_singleton in Hk. tauto.
Qed.

Lemma entries_registration_cases k es :
  entries registration k = Some es → k = "enum" ∨ k = "struct" ∨ k = "trait".
Proof.
  unfold entries. intros Hes.
  destruct (get registration k) as [v|] eqn:Hget; [|done].
  by eapply get_registration_cases.
Qed.

Lemma names_registration_cases k ns :
  names registration k = Some ns → k = "enum" ∨ k = "struct" ∨ k = "trait".
Proof.
  unfold names. intros Hns.
  destruct (entries registration k) as [es|] eqn:Hes; [|done].
  by eapply entries_registration_cases.
Qed.

(** Every registered entry is a row of the flat registry. *)
Lemma registered_rows k name summary :
  registered registration k name summary →
  (k, name, summary) ∈ rows registration.
Proof.
  intros (es & Hes & Hin).
  destruct (entries_registration_cases _ _ Hes) as [-> | [-> | ->]];
    vm_compute in Hes; injection Hes as <-;
    repeat (apply elem_of_cons in Hin as [[= -> ->] | Hin]; [compute_done|]);
    by apply elem_of_nil in Hin.
Qed.

(** A property that can be computed holds of every registered entry once it
    is checked on the rows. *)
Lemma registered_forallb (f : string * string * string → bool) :
  forallb f (rows registration) = true →
  ∀ k name summary,
    registered registration k name summary → f (k, name, summary) = true.
Proof.
  intros Hall k name summary Hreg.
  apply registered_rows, list_elem_of_In in Hreg.
  by apply (proj1 (forallb_forall f _) Hall).
Qed.

(** ** The categories *)

(** C1: the object passed to [initSidebarItems] has exactly the three keys
    [enum], [struct] and [trait], no more and no fewer: its key set is that
    set, it has three elements, and the literal writes each key once. *)
Theorem registration_has_exactly_three_keys (v : value) :
  [ v ] ∈ passed_to "initSidebarItems" sidebar_items_js →
  keys v = {[ "enum"; "struct"; "trait" ]}
  ∧ size (keys v) = 3
  ∧ written_keys v = [ "enum"; "struct"; "trait" ].
Proof.
  rewrite passed_registration, list_elem_of_singleton. intros [= ->].
  split; [apply keys_registration|]. split; [by vm_compute | reflexivity].
Qed.

Lemma registration_has_exactly_three_keys_witness :
  [ registration ] ∈ passed_to "initSidebarItems" sidebar_items_js
  ∧ keys registration = {[ "enum"; "struct"; "trait" ]}
  ∧ size (keys registration) = 3
  ∧ written_keys registration = [ "enum"; "struct"; "trait" ].
Proof.
  assert (H : [ registration ] ∈ passed_to "initSidebarItems" sidebar_items_js)
    by (vm_compute; constructor).
  split; [exact H | exact (registration_has_exactly_three_keys registration H)].
Defined.

(** C2: the value of every category key is an array whose elements are, in
    order, arrays of exactly two strings, a name and then its summary. *)
Theorem category_values_are_pair_arrays (k : string) (v : value) :
  get registration k = Some v →
  ∃ es : list (string * string),
    as_entries v = Some es
    ∧ v = VArray ((λ e, VArray [ VString e.1; VString e.2 ]) <$> es).
Proof.
  intros Hget.
  destruct (get_registration_cases _ _ Hget) as [-> | [-> | ->]];
    vm_compute in Hget; injection Hget as <-;
    eexists; (split; [reflexivity|]); reflexivity.
Qed.

Lemma category_values_are_pair_arrays_witness :
  ∃ v, get registration "trait" = Some v
  ∧ ∃ es : list (string * string),
      as_entries v = Some es
      ∧ v = VArray ((λ e, VArray [ VString e.1; VString e.2 ]) <$> es).
Proof.
  eexists. split; [reflexivity|].
  apply (category_values_are_pair_arrays "trait"). reflexivity.
Defined.

(** C3: within each category the names are pairwise distinct, and the sets
    of names are [{ChannelKind}] for [enum],
    [{Channel, Getter, Node, NodeId, Setter}] for [struct] and
    [{IOMechanism}] for [trait]. *)
Theorem names_distinct_within_category (k : string) :
  k ∈ keys registration →
  ∃ ns : list string,
    names registration k = Some ns
    ∧ NoDup ns
    ∧ (k = "enum" ∧ list_to_set ns =@{gset string} {[ "ChannelKind" ]}
       ∨ k = "struct"
         ∧ list_to_set ns
           =@{gset string} {[ "Channel"; "Getter"; "Node"; "NodeId"; "Setter" ]}
       ∨ k = "trait" ∧ list_to_set ns =@{gset string} {[ "IOMechanism" ]}).
Proof.
  rewrite keys_registration, !elem_of_union, !elem_of_singleton.
  intros [[-> | ->] | ->];
    (eexists; split; [by vm_compute|]); (split; [compute_done|]).
  - left. split; [done | by vm_compute].
  - right; left. split; [done | by vm_compute].
  - right; right. split; [done | by vm_compute].
Qed.

Lemma names_distinct_within_category_witness :
  "struct" ∈ keys registration
  ∧ ∃ ns : list string,
      names registration "struct" = Some ns
      ∧ NoDup ns
      ∧ list_to_set ns
        =@{gset string} {[ "Channel"; "Getter"; "Node"; "NodeId"; "Setter" ]}.
Proof.
  assert (H : "struct" ∈ keys registration) by compute_done.
  split; [exact H|].
  destruct (names_distinct_within_category "struct" H)
    as (ns & Hns & Hdup & [[Hk _] | [[_ Hset] | [Hk _]]]);
    [discriminate Hk | by exists ns | discriminate Hk].
Defined.

(** C4: every summary of every category is a non-empty string. *)
Theorem summaries_nonempty (k name summary : string) :
  registered registration k name summary → summary ≠ "".
Proof.
  intros Hreg.
  apply (registered_forallb (λ r, negb (String.eqb r.2 ""))) in Hreg;
    [|by vm_compute].
  simpl in Hreg. intros ->. discriminate Hreg.
Qed.

Lemma summaries_nonempty_witness :
  registered registration "struct" "Getter"
    "A getter operation available on a channel."
  ∧ "A getter operation available on a channel." ≠ "".
Proof.
  assert (H : registered registration "struct" "Getter"
                "A getter operation available on a channel.")
    by (eexists; split; [reflexivity | vm_compute; repeat constructor]).
  split; [exact H | exact (summaries_nonempty _ _ _ H)].
Defined.

(** ** Type names and capability names *)

(** The count of five given for the type names does not hold: the [enum]
    and [struct] categories together register six names. *)
Lemma five_type_names_counterexample :
  ¬ ∃ ts cs,
      type_names registration = Some ts ∧ length ts = 5
      ∧ capability_names registration = Some cs ∧ length cs = 1.
Proof.
  intros (ts & cs & Hts & Hlen & _). vm_compute in Hts.
  injection Hts as <-. discriminate Hlen.
Qed.

(** C5, amended: the file is a single call on a single object literal, which
    registers exactly six type names, [ChannelKind], [Channel], [Getter],
    [Node], [NodeId] and [Setter] (the [enum] entries followed by the
    [struct] entries), and exactly one capability name, [IOMechanism] (the
    sole [trait] entry). *)
Theorem six_type_names_one_capability :
  (∃ ps, sidebar_items_js = [ Call "initSidebarItems" [ VObject ps ] ])
  ∧ type_names registration
    = Some [ "ChannelKind"; "Channel"; "Getter"; "Node"; "NodeId"; "Setter" ]
  ∧ length <$> type_names registration = Some 6
  ∧ capability_names registration = Some [ "IOMechanism" ]
  ∧ length <$> capability_names registration = Some 1.
Proof.
  split; [by eexists|]. repeat split; by vm_compute.
Qed.

(** ** Summaries as HTML text *)

(** The summary of [NodeId] contains a raw [<] and a raw [>], so not every
    summary is escaped. *)
Lemma summaries_html_escaped_counterexample :
  ¬ ∀ k name summary,
      registered registration k name summary →
      html_escaped_line summary = true.
Proof.
  intros Hall.
  assert (Hreg : registered registration "struct" "NodeId"
                   "A marker for Id. Only useful for writing `Id<NodeId>`.")
    by (eexists; split; [reflexivity | vm_compute; repeat constructor]).
  apply Hall in Hreg. vm_compute in Hreg. discriminate Hreg.
Qed.

(** C6, amended: every summary is a single line, with no newline character,
    and any [&] in it occurs only as part of an HTML entity (none contains
    [&] at all); every summary but that of [NodeId] contains no raw [<] or
    [>]; the summary of [NodeId] is the text written below, with one raw
    [<] and one raw [>]. *)
Theorem summaries_single_line_mostly_escaped (k name summary : string) :
  registered registration k name summary →
  single_line summary = true
  ∧ amp_in_entities (chars summary) = true
  ∧ has_char "&" summary = false
  ∧ (name ≠ "NodeId" → no_raw_angle summary = true)
  ∧ (name = "NodeId" →
     summary = "A marker for Id. Only useful for writing `Id<NodeId>`."
     ∧ no_raw_angle summary = false).
Proof.
  intros Hreg.
  apply (registered_forallb
           (λ r, single_line r.2 && amp_in_entities (chars r.2)
                 && negb (has_char "&" r.2)
                 && (if String.eqb r.1.2 "NodeId"
                     then String.eqb r.2
                            "A marker for Id. Only useful for writing `Id<NodeId>`."
                          && negb (no_raw_angle r.2)
                     else no_raw_angle r.2))) in Hreg;
    [|by vm_compute].
  simpl in Hreg. rewrite !andb_true_iff, negb_true_iff in Hreg.
  destruct Hreg as [[[Hline Hamp] Hnone] Hangle].
  do 3 (split; [assumption|]).
  destruct (String.eqb_spec name "NodeId") as [-> | Hne].
  - apply andb_true_iff in Hangle as [Heq%String.eqb_eq Hraw%negb_true_iff].
    split; [done | by intros _].
  - split; [by intros _ | done].
Qed.

Lemma summaries_single_line_mostly_escaped_witness :
  registered registration "trait" "IOMechanism"
    "The communication mechanism used by the channel."
  ∧ single_line "The communication mechanism used by the channel." = true
  ∧ no_raw_angle "The communication mechanism used by the channel." = true.
Proof.
  assert (H : registered registration "trait" "IOMechanism"
                "The communication mechanism used by the channel.")
    by (eexists; split; [reflexivity | vm_compute; repeat constructor]).
  split; [exact H|].
  destruct (summaries_single_line_mostly_escaped _ _ _ H)
    as (Hline & _ & _ & Hangle & _).
  split; [exact Hline | apply Hangle; discriminate].
Defined.

(** ** Order and uniqueness of names *)

(** C7: within every category the names are in strictly ascending order of
    their character codes; in [struct] they read [Channel], [Getter],
    [Node], [NodeId], [Setter]. *)
Theorem names_strictly_ascending (k : string) :
  k ∈ keys registration →
  ∃ ns : list string,
    names registration k = Some ns
    ∧ StronglySorted name_lt ns
    ∧ (k = "struct" → ns = [ "Channel"; "Getter"; "Node"; "NodeId"; "Setter" ]).
Proof.
  rewrite keys_registration, !elem_of_union, !elem_of_singleton.
  intros [[-> | ->] | ->];
    (eexists; split; [by vm_compute|]);
    (split; [repeat constructor | done]).
Qed.

Lemma names_strictly_ascending_witness :
  "struct" ∈ keys registration
  ∧ names registration "struct"
    = Some [ "Channel"; "Getter"; "Node"; "NodeId"; "Setter" ]
  ∧ StronglySorted name_lt [ "Channel"; "Getter"; "Node"; "NodeId"; "Setter" ].
Proof.
  assert (H : "struct" ∈ keys registration) by compute_done.
  split; [exact H|].
  destruct (names_strictly_ascending "struct" H) as (ns & Hns & Hsorted & Heq).
  rewrite (Heq eq_refl) in Hns, Hsorted. by split.
Defined.

(** C8: names are unique across the whole object: two occurrences of a
    name, in whatever categories and at whatever positions, are the same
    occurrence. *)
Theorem names_globally_unique
    (k1 k2 : string) (ns1 ns2 : list string) (i j : nat) (name : string) :
  names registration k1 = Some ns1 →
  names registration k2 = Some ns2 →
  ns1 !! i = Some name →
  ns2 !! j = Some name →
  k1 = k2 ∧ i = j.
Proof.
  intros Hns1 Hns2 Hi Hj.
  destruct (names_registration_cases _ _ Hns1) as [-> | [-> | ->]];
    vm_compute in Hns1; injection Hns1 as <-;
    destruct (names_registration_cases _ _ Hns2) as [-> | [-> | ->]];
    vm_compute in Hns2; injection Hns2 as <-;
    repeat (destruct i as [|i]; simpl in Hi; try discriminate Hi);
    injection Hi as <-;
    repeat (destruct j as [|j]; simpl in Hj; try discriminate Hj);
    done.
Qed.

Lemma names_globally_unique_witness :
  names registration "struct"
  = Some [ "Channel"; "Getter"; "Node"; "NodeId"; "Setter" ]
  ∧ [ "Channel"; "Getter"; "Node"; "NodeId"; "Setter" ] !! 3 = Some "NodeId"
  ∧ "struct" = "struct" ∧ 3 = 3.
Proof.
  split; [reflexivity|]. split; [reflexivity|].
  apply (names_globally_unique "struct" "struct"
           [ "Channel"; "Getter"; "Node"; "NodeId"; "Setter" ]
           [ "Channel"; "Getter"; "Node"; "NodeId"; "Setter" ] 3 3 "NodeId");
    reflexivity.
Defined.

(** C9: every registered name is a non-empty string that starts with an
    ASCII letter and contains only ASCII letters and digits. *)
Theorem names_are_identifiers (k name summary : string) :
  registered registration k name summary → is_identifier name = true.
Proof.
  intros Hreg.
  by apply (registered_forallb (λ r, is_identifier r.1.2)) in Hreg;
    [|by vm_compute].
Qed.

Lemma names_are_identifiers_witness :
  registered registration "enum" "ChannelKind"
    ("The kind of the service, i.e. a strongly-typed description of _what_ the service can do. Used both for locating services (e.g. " +:+ dq +:+ "I need a clock" +:+ dq +:+ " or " +:+ dq +:+ "I need something that can provide pictures" +:+ dq +:+ ") and for determining the data structure that these services can provide or consume.")
  ∧ is_identifier "ChannelKind" = true.
Proof.
  match goal with |- ?R ∧ _ => assert (H : R) end.
  { eexists; split; [reflexivity | vm_compute; repeat constructor]. }
  split; [exact H | exact (names_are_identifiers _ _ _ H)].
Defined.

(** ** Reading back what the literal writes *)

(** Every property value is an array of two-string arrays. *)
Lemma category_values_shape (k : string) (v : value) :
  get registration k = Some v →
  ∃ es : list (string * string),
    as_entries v = Some es
    ∧ v = VArray ((λ e, VArray [ VString e.1; VString e.2 ]) <$> es).
Proof.
  intros Hget.
  destruct (get_registration_cases _ _ Hget) as [-> | [-> | ->]];
    vm_compute in Hget; injection Hget as <-;
    eexists; (split; [reflexivity|]); reflexivity.
Qed.

Section define_props.
Implicit Types (ps : list (string * value)) (m : gmap string value).

(** Defining properties leaves the keys it does not write alone. *)
Lemma foldl_define_unwritten ps m k :
  k ∉ ps.*1 → foldl (λ m kv, <[kv.1 := kv.2]> m) m ps !! k = m !! k.
Proof.
  revert m. induction ps as [|[k' v'] ps IH]; intros m Hk; [done|].
  rewrite fmap_cons, not_elem_of_cons in Hk. destruct Hk as [Hne Hk].
  simpl. rewrite IH by done. by apply lookup_insert_ne.
Qed.

Lemma define_props_unwritten ps k :
  k ∉ ps.*1 → define_props ps !! k = None.
Proof. intros Hk. unfold define_props. by rewrite foldl_define_unwritten. Qed.

(** Where every key is written once, a key reads as it was written. *)
Lemma define_props_written ps k v :
  NoDup ps.*1 → (k, v) ∈ ps → define_props ps !! k = Some v.
Proof.
  unfold define_props. generalize (∅ : gmap string value).
  induction ps as [|[k' v'] ps IH]; intros m Hdup Hin.
  - by apply elem_of_nil in Hin.
  - rewrite fmap_cons in Hdup. apply NoDup_cons in Hdup as [Hfresh Hdup].
    apply elem_of_cons in Hin as [[= -> ->] | Hin]; simpl.
    + rewrite foldl_define_unwritten by done. apply lookup_insert_eq.
    + by apply IH.
Qed.
End define_props.

Lemma written_keys_props (v : value) : written_keys v = (written_props v).*1.
Proof. by destruct v. Qed.

Lemma get_written (v : value) (k : string) (x : value) :
  NoDup (written_keys v) → (k, x) ∈ written_props v → get v k = Some x.
Proof.
  destruct v as [s | elems | ps]; simpl; intros Hdup Hin;
    try by apply elem_of_nil in Hin.
  by apply define_props_written.
Qed.

(** X1: nothing the literal writes is lost or shadowed: every element of
    every array written under a category is a two-string array, and the name
    and summary it holds are registered under that category. *)
Theorem written_entries_are_registered
    (k : string) (elems : list value) (e : value) :
  (k, VArray elems) ∈ written_props registration →
  e ∈ elems →
  ∃ name summary,
    e = VArray [ VString name; VString summary ]
    ∧ registered registration k name summary.
Proof.
  intros Hk He.
  assert (Hget : get registration k = Some (VArray elems)).
  { apply get_written; [|done]. compute_done. }
  destruct (category_values_shape k _ Hget) as (es & Hes & Hshape).
  injection Hshape as ->.
  apply list_elem_of_fmap in He as ([name summary] & -> & Hin).
  exists name, summary. split; [done|].
  exists es. split; [|done]. unfold entries. by rewrite Hget.
Qed.

Lemma written_entries_are_registered_witness :
  ("trait",
   VArray [ VArray [ VString "IOMechanism";
                     VString "The communication mechanism used by the channel." ] ])
    ∈ written_props registration
  ∧ ∃ name summary,
      VArray [ VString "IOMechanism";
               VString "The communication mechanism used by the channel." ]
      = VArray [ VString name; VString summary ]
      ∧ registered registration "trait" name summary.
Proof.
  match goal with |- ?K ∧ _ => assert (Hk : K) by (vm_compute; repeat constructor) end.
  split; [exact Hk|].
  apply (written_entries_are_registered _ _ _ Hk). vm_compute; constructor.
Defined.

(** X2: a name identifies its entry: whatever is registered under one name
    has one category and one summary, so looking an item up by its name
    alone is well defined. *)
Theorem name_determines_entry (k1 k2 name s1 s2 : string) :
  registered registration k1 name s1 →
  registered registration k2 name s2 →
  k1 = k2 ∧ s1 = s2.
Proof.
  intros H1%registered_rows%list_elem_of_In H2%registered_rows%list_elem_of_In.
  assert (Hall :
    forallb (λ r1, forallb (λ r2,
      implb (String.eqb r1.1.2 r2.1.2)
            (String.eqb r1.1.1 r2.1.1 && String.eqb r1.2 r2.2))
      (rows registration)) (rows registration) = true) by (by vm_compute).
  apply (proj1 (forallb_forall _ _) Hall) in H1.
  apply (proj1 (forallb_forall _ _) H1) in H2. simpl in H2.
  rewrite String.eqb_refl in H2. simpl in H2.
  apply andb_true_iff in H2 as [Hk%String.eqb_eq Hs%String.eqb_eq]. done.
Qed.

Lemma name_determines_entry_witness :
  registered registration "struct" "Getter"
    "A getter operation available on a channel."
  ∧ "struct" = "struct"
  ∧ "A getter operation available on a channel."
    = "A getter operation available on a channel.".
Proof.
  assert (H : registered registration "struct" "Getter"
                "A getter operation available on a channel.")
    by (eexists; split; [reflexivity | vm_compute; repeat constructor]).
  split; [exact H | exact (name_determines_entry _ _ _ _ _ H H)].
Defined.

(** ** The bytes of the file *)

(** X3: the file is the compact print of its one call: the callee, an
    opening parenthesis, the object literal with no white space between
    tokens and every double quote inside a string escaped by a backslash,
    then a closing parenthesis and a semicolon, with no newline after it. *)
Theorem file_is_compact_print :
  script_to_js [ Call "initSidebarItems" [ registration ] ] = source_text
  ∧ String.length source_text = 1152.
Proof. split; by vm_compute. Qed.

(** X4: every byte of the file is a printable ASCII character: the file has
    no control character, so no line break or tab anywhere, and no byte
    outside ASCII, so it reads the same in any ASCII-compatible encoding. *)
Theorem file_is_printable_ascii (c : ascii) :
  c ∈ chars source_text → is_printable_ascii c = true.
Proof.
  intros Hc%list_elem_of_In. revert c Hc. apply forallb_forall. by vm_compute.
Qed.

Lemma file_is_printable_ascii_witness :
  "{"%char ∈ chars source_text ∧ is_printable_ascii "{" = true.
Proof.
  assert (H : "{"%char ∈ chars source_text) by compute_done.
  split; [exact H | exact (file_is_printable_ascii _ H)].
Defined.
